(** * demo_python: the greeting and the adder, and their pytest file

    A shallow embedding of [demo_python.py] and [test_demo_python.py].

    The module is three lines of Python, so almost all of its behaviour is
    the behaviour of the language's [+], [==], [print] and f-strings on the
    values it is handed.  The development therefore has three layers:

    - a universe of Python values (None, bool, int, float, str), with
      unbounded integers as [Z] and floats as IEEE 754 binary64 through the
      Standard Library's executable [spec_float];
    - the runtime's binary [+] as CPython dispatches it (number slots of
      the left and right operand, then the sequence-concatenation slot),
      its [==], [str()] and [print];
    - the two functions, the module body and the three test functions,
      written in a small state-and-exception monad over the interpreter's
      observable world: standard output, with its buffer, and whether the
      file behind it takes what it is handed;
    - the same adder on operands of user-defined classes, whose [__add__]
      and [__radd__] are arbitrary computations in that monad. *)

From Stdlib Require Import ZArith String Ascii List Bool Lia DecimalString.
From Stdlib Require Import Floats.SpecFloat.
Import ListNotations.

Local Open Scope string_scope.
Local Open Scope Z_scope.

(* ===================================================================== *)
(** ** Values and types *)
(* ===================================================================== *)

(** The built-in values the module's docstrings and tests speak of, and
    their nearest neighbours.  [int] is unbounded; [float] is a binary64
    (one NaN, no payload: [==] cannot observe payloads); [str] is a
    character sequence.  Instances of user-defined classes are added on
    top of these in [Dyn]. *)
Inductive value : Type :=
| VNone
| VBool (b : bool)
| VInt (z : Z)
| VFloat (f : spec_float)
| VStr (s : string).

Inductive pytype : Type := TNoneType | TBool | TInt | TFloat | TStr.

Definition type_of (v : value) : pytype :=
  match v with
  | VNone => TNoneType
  | VBool _ => TBool
  | VInt _ => TInt
  | VFloat _ => TFloat
  | VStr _ => TStr
  end.

Definition pytype_eqb (s t : pytype) : bool :=
  match s, t with
  | TNoneType, TNoneType | TBool, TBool | TInt, TInt
  | TFloat, TFloat | TStr, TStr => true
  | _, _ => false
  end.

(** [bool] is a subclass of [int]; there is no other inheritance among the
    five types. *)
Definition issubtype (s t : pytype) : bool :=
  match s, t with
  | TBool, TInt => true
  | _, _ => pytype_eqb s t
  end.

Definition isinstance (v : value) (t : pytype) : bool :=
  issubtype (type_of v) t.

(** "Numeric" in the sense of the module's docstring: an integer or a
    floating-point number. *)
Definition is_int (v : value) : bool := isinstance v TInt.
Definition is_float (v : value) : bool := isinstance v TFloat.
Definition is_str (v : value) : bool := isinstance v TStr.
Definition is_numeric (v : value) : bool := is_int v || is_float v.

Definition is_nan (v : value) : bool :=
  match v with
  | VFloat S754_nan => true
  | _ => false
  end.

(* ===================================================================== *)
(** ** Exceptions, the world and the monad *)
(* ===================================================================== *)

Inductive exn : Type :=
| TypeError | OverflowError | AssertionError | OSError | AttributeError.

Inductive outcome (A : Type) : Type :=
| Ok (a : A)
| Raise (e : exn).
Arguments Ok {A} a.
Arguments Raise {A} e.

(** How [sys.stdout] hands text on to the file behind descriptor 1:
    at once ([python -u]), at every line end (a terminal), or when its
    buffer fills and at exit (a file or a pipe). *)
Inductive buffering : Type := Unbuffered | LineBuffered | BlockBuffered.

(** What a call could observe or change besides its arguments.
    [stdout] is the text the file behind descriptor 1 has received;
    [pending] is text written to [sys.stdout] and still in its buffer;
    [sys_stdout] is [None] when descriptor 1 was closed at start-up (the
    interpreter then binds [sys.stdout] to [None]); [accepts] tells whether
    the file takes what it is handed ([false]: a full device, a pipe whose
    reader is gone). *)
Record World : Type := Build_World {
  stdout : string;
  pending : string;
  sys_stdout : option buffering;
  accepts : bool
}.

(** An unbuffered standard output that has received [s] and takes more. *)
Definition mkWorld (s : string) : World :=
  Build_World s "" (Some Unbuffered) true.

Definition init_world : World := mkWorld "".

(** A computation reads the world and gives back an outcome and the world
    it leaves; an exception keeps what was already written. *)
Definition M (A : Type) : Type := World -> outcome A * World.

Definition ret {A} (a : A) : M A := fun w => (Ok a, w).

Definition raise {A} (e : exn) : M A := fun w => (Raise e, w).

Definition bind {A B} (m : M A) (k : A -> M B) : M B :=
  fun w =>
    match m w with
    | (Ok a, w') => k a w'
    | (Raise e, w') => (Raise e, w')
    end.

Definition lift {A} (o : outcome A) : M A := fun w => (o, w).

Definition is_line_end (c : ascii) : bool :=
  (Ascii.eqb c (ascii_of_nat 10) || Ascii.eqb c (ascii_of_nat 13))%bool.

Fixpoint has_line_end (s : string) : bool :=
  match s with
  | EmptyString => false
  | String c s' => (is_line_end c || has_line_end s')%bool
  end.

(** Size of the stream's buffer (the text layer and the byte layer are
    taken as one buffer). *)
Definition DEFAULT_BUFFER_SIZE : Z := 8192.

(** Put [s] in the stream's buffer. *)
Definition buffer_text (s : string) : M unit :=
  fun w => (Ok tt, Build_World (stdout w) (pending w ++ s)
                               (sys_stdout w) (accepts w)).

(** Hand the buffer to the file.  A file that refuses makes this an
    [OSError] and the text stays in the buffer; with nothing buffered there
    is nothing to refuse. *)
Definition flush : M unit :=
  fun w =>
    if accepts w then
      (Ok tt, Build_World (stdout w ++ pending w) "" (sys_stdout w) (accepts w))
    else
      match pending w with
      | EmptyString => (Ok tt, w)
      | String _ _ => (Raise OSError, w)
      end.

(** [sys.stdout.write(s)].  Unbuffered, the text goes to the file at once
    and is dropped when the file refuses it; line-buffered, it is buffered
    and the buffer handed on if [s] has a line end; block-buffered, it is
    buffered and handed on only when the buffer is full.  With
    [sys.stdout] bound to [None] there is no [write] to call. *)
Definition write (s : string) : M unit :=
  fun w =>
    match sys_stdout w with
    | None => (Raise AttributeError, w)
    | Some Unbuffered =>
        if accepts w then
          (Ok tt, Build_World (stdout w ++ pending w ++ s) ""
                              (sys_stdout w) (accepts w))
        else (Raise OSError, w)
    | Some LineBuffered =>
        bind (buffer_text s)
             (fun _ => if has_line_end s then flush else ret tt) w
    | Some BlockBuffered =>
        bind (buffer_text s)
             (fun _ w' =>
                if DEFAULT_BUFFER_SIZE <? Z.of_nat (String.length (pending w'))
                then flush w' else (Ok tt, w')) w
    end.

Declare Scope py_scope.
Delimit Scope py_scope with py.
Notation "x <- c ;; k" := (bind c (fun x => k))
  (at level 61, c at next level, right associativity) : py_scope.
Notation "c ;; k" := (bind c (fun _ => k))
  (at level 61, right associativity) : py_scope.
Local Open Scope py_scope.

(* ===================================================================== *)
(** ** Floats and integers of the runtime *)
(* ===================================================================== *)

Module Float.

(** binary64: 53 bits of mantissa, infinities at exponent 1024. *)
Definition DBL_MANT_DIG : Z := 53.
Definition DBL_MAX_EXP : Z := 1024.

Definition add : spec_float -> spec_float -> spec_float :=
  SFadd DBL_MANT_DIG DBL_MAX_EXP.

Definition eqb : spec_float -> spec_float -> bool := SFeqb.

(** The double nearest to [m * 2^e] (ties to even): how a decimal
    literal such as [2.5] (= 5 * 2^-1) is read. *)
Definition of_scaled (m e : Z) : spec_float :=
  binary_normalize DBL_MANT_DIG DBL_MAX_EXP m e false.

Definition lit_2_0 : spec_float := of_scaled 2 0.
Definition lit_2_5 : spec_float := of_scaled 5 (-1).
Definition lit_3_0 : spec_float := of_scaled 3 0.
Definition lit_1_0 : spec_float := of_scaled 1 0.

(** [PyLong_AsDouble]: round the integer to 53 bits, ties to even, and
    raise [OverflowError] when the rounded value has no finite double. *)
Definition PyLong_AsDouble (z : Z) : outcome spec_float :=
  match of_scaled z 0 with
  | S754_infinity _ => Raise OverflowError
  | f => Ok f
  end.

(** [int == float] compares the exact mathematical values. *)
Definition eqb_int (z : Z) (f : spec_float) : bool :=
  match f with
  | S754_nan | S754_infinity _ => false
  | S754_zero _ => z =? 0
  | S754_finite s m e =>
      let v := cond_Zopp s (Zpos m) in
      if 0 <=? e then z =? v * 2 ^ e else z * 2 ^ (- e) =? v
  end.

End Float.

(** The integer an [int] object (or a [bool], its subclass) holds. *)
Definition long_value (v : value) : option Z :=
  match v with
  | VInt z => Some z
  | VBool b => Some (Z.b2z b)
  | _ => None
  end.

(* ===================================================================== *)
(** ** The binary [+] *)
(* ===================================================================== *)

(** A slot answers [None] for [NotImplemented]. *)
Definition slot_result : Type := option (outcome value).

(** [int.__add__] / [int.__radd__]: both operands must be ints. *)
Definition long_add (v w : value) : slot_result :=
  match long_value v, long_value w with
  | Some a, Some b => Some (Ok (VInt (a + b)))
  | _, _ => None
  end.

(** [CONVERT_TO_DOUBLE]: a float as it is, an int through
    [PyLong_AsDouble], anything else is not handled. *)
Definition convert_to_double (v : value) : option (outcome spec_float) :=
  match v with
  | VFloat f => Some (Ok f)
  | _ =>
      match long_value v with
      | Some z => Some (Float.PyLong_AsDouble z)
      | None => None
      end
  end.

(** [float.__add__] / [float.__radd__]: left operand converted first. *)
Definition float_add (v w : value) : slot_result :=
  match convert_to_double v with
  | None => None
  | Some (Raise e) => Some (Raise e)
  | Some (Ok a) =>
      match convert_to_double w with
      | None => None
      | Some (Raise e) => Some (Raise e)
      | Some (Ok b) => Some (Ok (VFloat (Float.add a b)))
      end
  end.

(** [str]'s concatenation slot: the right operand must be a [str]. *)
Definition unicode_concat (v w : value) : outcome value :=
  match v, w with
  | VStr s, VStr t => Ok (VStr (s ++ t))
  | _, _ => Raise TypeError
  end.

Inductive binaryfunc : Type := slot_long_add | slot_float_add.

Definition binaryfunc_eqb (f g : binaryfunc) : bool :=
  match f, g with
  | slot_long_add, slot_long_add | slot_float_add, slot_float_add => true
  | _, _ => false
  end.

Definition call_slot (f : binaryfunc) : value -> value -> slot_result :=
  match f with
  | slot_long_add => long_add
  | slot_float_add => float_add
  end.

(** The type's number-protocol [+] slot; [bool] inherits [int]'s. *)
Definition nb_add (t : pytype) : option binaryfunc :=
  match t with
  | TInt | TBool => Some slot_long_add
  | TFloat => Some slot_float_add
  | TNoneType | TStr => None
  end.

(** The type's sequence-protocol concatenation slot. *)
Definition sq_concat (t : pytype) : option (value -> value -> outcome value) :=
  match t with
  | TStr => Some unicode_concat
  | _ => None
  end.

(** [binary_op1]: the left operand's slot, then the right operand's when
    it is a different one; a right operand whose type is a proper subclass
    with its own slot goes first. *)
Definition binary_op1 (v w : value) : slot_result :=
  let slotv := nb_add (type_of v) in
  let slotw :=
    if pytype_eqb (type_of w) (type_of v) then None
    else
      match nb_add (type_of w), slotv with
      | Some g, Some f => if binaryfunc_eqb g f then None else Some g
      | sw, _ => sw
      end in
  let try_w (sw : option binaryfunc) : slot_result :=
    match sw with
    | Some g => call_slot g v w
    | None => None
    end in
  match slotv with
  | Some f =>
      let first :=
        match slotw with
        | Some g =>
            if issubtype (type_of w) (type_of v) then call_slot g v w else None
        | None => None
        end in
      match first with
      | Some r => Some r
      | None =>
          let slotw' :=
            match slotw with
            | Some _ => if issubtype (type_of w) (type_of v) then None else slotw
            | None => None
            end in
          match call_slot f v w with
          | Some r => Some r
          | None => try_w slotw'
          end
      end
  | None => try_w slotw
  end.

(** [PyNumber_Add], the meaning of [v + w]. *)
Definition PyNumber_Add (v w : value) : outcome value :=
  match binary_op1 v w with
  | Some r => r
  | None =>
      match sq_concat (type_of v) with
      | Some concat => concat v w
      | None => Raise TypeError
      end
  end.

(* ===================================================================== *)
(** ** [==], [str()] and [print] *)
(* ===================================================================== *)

(** [v == w] on the five types. *)
Definition py_eq (v w : value) : bool :=
  match v, w with
  | VNone, VNone => true
  | VStr s, VStr t => String.eqb s t
  | VFloat f, VFloat g => Float.eqb f g
  | VFloat f, _ =>
      match long_value w with
      | Some z => Float.eqb_int z f
      | None => false
      end
  | _, VFloat g =>
      match long_value v with
      | Some z => Float.eqb_int z g
      | None => false
      end
  | _, _ =>
      match long_value v, long_value w with
      | Some a, Some b => a =? b
      | _, _ => false
      end
  end.

Definition newline : string := String (ascii_of_nat 10) EmptyString.

Section Printing.

(** The runtime's shortest round-trip rendering of a float is left
    abstract: the module never prints one. *)
Variable float_repr : spec_float -> string.

(** [str(v)], which is also [format(v, '')] for these types. *)
Definition py_str (v : value) : string :=
  match v with
  | VNone => "None"
  | VBool true => "True"
  | VBool false => "False"
  | VInt z => NilZero.string_of_int (Z.to_int z)
  | VFloat f => float_repr f
  | VStr s => s
  end.

(** [print(v)]: nothing at all when [sys.stdout] is [None]; otherwise two
    writes to it, the text of [v] and then the line end. *)
Definition print (v : value) : M unit :=
  fun w =>
    match sys_stdout w with
    | None => (Ok tt, w)
    | Some _ => (write (py_str v) ;; write newline) w
    end.

End Printing.

(* ===================================================================== *)
(** ** demo_python.py *)
(* ===================================================================== *)

(** [def hello_world(): return "Hello, World from Python CI!"] *)
Definition hello_world : M value :=
  ret (VStr "Hello, World from Python CI!").

(** [def add_numbers(a, b): return a + b] *)
Definition add_numbers (a b : value) : M value :=
  lift (PyNumber_Add a b).

Section Script.

Variable float_repr : spec_float -> string.

(** The module's top level, run with [__name__] bound to [name]. *)
Definition module_body (name : string) : M unit :=
  if String.eqb name "__main__" then
    greeting <- hello_world ;;
    print float_repr greeting ;;
    total <- add_numbers (VInt 2) (VInt 3) ;;
    print float_repr (VStr ("2 + 3 = " ++ py_str float_repr total))
  else ret tt.

(** [python demo_python.py]: the status is 0 when the module body
    finishes and 1 when an exception escapes it; the interpreter then
    flushes [sys.stdout], if there is one, and exits with 120 instead when
    that flush fails. *)
Definition run_script (w : World) : Z * World :=
  let (r, w1) := module_body "__main__" w in
  let status := match r with Ok _ => 0 | Raise _ => 1 end in
  match sys_stdout w1 with
  | None => (status, w1)
  | Some _ =>
      match flush w1 with
      | (Ok _, w2) => (status, w2)
      | (Raise _, w2) => (120, w2)
      end
  end.

End Script.

(* ===================================================================== *)
(** ** test_demo_python.py *)
(* ===================================================================== *)

Definition assert_ (c : bool) : M unit :=
  if c then ret tt else raise AssertionError.

(** The expression [call == expected]. *)
Definition eq_expr (call : M value) (expected : value) : M bool :=
  r <- call ;; ret (py_eq r expected).

Definition test_hello_world : M unit :=
  result <- hello_world ;;
  assert_ (py_eq result (VStr "Hello, World from Python CI!")) ;;
  assert_ (isinstance result TStr).

Definition test_add_numbers : M unit :=
  c1 <- eq_expr (add_numbers (VInt 2) (VInt 3)) (VInt 5) ;; assert_ c1 ;;
  c2 <- eq_expr (add_numbers (VInt 0) (VInt 0)) (VInt 0) ;; assert_ c2 ;;
  c3 <- eq_expr (add_numbers (VInt (-1)) (VInt 1)) (VInt 0) ;; assert_ c3 ;;
  c4 <- eq_expr (add_numbers (VInt 10) (VInt (-5))) (VInt 5) ;; assert_ c4.


(** The expression [add_numbers(a, b) == add_numbers(b, a)]. *)
Definition add_eq_swapped (a b : value) : M bool :=
  x <- add_numbers a b ;;
  y <- add_numbers b a ;;
  ret (py_eq x y).

(** Unary minus, as in the tests' [-1] and [-5]: an int (or bool) is
    negated as an integer, a float has its sign flipped. *)
Definition PyNumber_Negative (v : value) : outcome value :=
  match v with
  | VFloat f => Ok (VFloat (SFopp f))
  | _ =>
      match long_value v with
      | Some z => Ok (VInt (- z))
      | None => Raise TypeError
      end
  end.

(** [math.isfinite] on numbers: neither NaN nor an infinity. *)
Definition is_finite (v : value) : bool :=
  match v with
  | VFloat (S754_nan | S754_infinity _) => false
  | _ => true
  end.

(** An operand that [+] cannot bring to a float: an int beyond the range
    of a double. *)
Definition overflows (v : value) : bool :=
  match convert_to_double v with
  | Some (Raise _) => true
  | _ => false
  end.

(** Two infinities of opposite sign. *)
Definition opposite_infinities (a b : value) : bool :=
  match a, b with
  | VFloat (S754_infinity s), VFloat (S754_infinity t) => xorb s t
  | _, _ => false
  end.

(** The operand pairs whose sum is NaN: a NaN among them, or infinities
    of opposite sign. *)
Definition nan_sum (a b : value) : bool :=
  is_nan a || is_nan b || opposite_infinities a b.


(** [add_numbers] on operands of any class.  [a + b] is whatever the
    operands' classes make it, so besides the built-in values there are
    instances of user-defined classes (deriving from [object] only), whose
    [__add__] and [__radd__], where defined, are arbitrary computations.
    A method sees a built-in partner's value, or only that its partner is
    some instance, and answers a built-in value or [NotImplemented]. *)
Module Dyn.

(** [None] as an answer is [NotImplemented]. *)
Definition method : Type := option value -> M (option value).

Record methods : Type := mkMethods {
  dunder_add : option method;
  dunder_radd : option method
}.

Inductive operand : Type :=
| Builtin (v : value)
| Instance (cls : nat) (m : methods).

Definition view (o : operand) : option value :=
  match o with
  | Builtin v => Some v
  | Instance _ _ => None
  end.

(** Call a method if the class defines it; a missing method counts as
    [NotImplemented]. *)
Definition call_maybe (f : option method) (other : operand) : M (option value) :=
  match f with
  | Some g => g (view other)
  | None => ret None
  end.

Definition or_type_error (r : option value) : M value :=
  match r with
  | Some x => ret x
  | None => raise TypeError
  end.

(** [a + b]: two built-in values as before; otherwise the left operand's
    [__add__], then, for operands of different classes, the right
    operand's [__radd__]; a built-in left operand does not handle an
    instance, so the instance's [__radd__] decides. *)
Definition binary_add (a b : operand) : M value :=
  match a, b with
  | Builtin v, Builtin w => lift (PyNumber_Add v w)
  | Builtin _, Instance _ mb =>
      r <- call_maybe (dunder_radd mb) a ;; or_type_error r
  | Instance _ ma, Builtin _ =>
      r <- call_maybe (dunder_add ma) b ;; or_type_error r
  | Instance ca ma, Instance cb mb =>
      r <- call_maybe (dunder_add ma) b ;;
      match r with
      | Some x => ret x
      | None =>
          if Nat.eqb ca cb then raise TypeError
          else r' <- call_maybe (dunder_radd mb) a ;; or_type_error r'
      end
  end.

(** [def add_numbers(a, b): return a + b] *)
Definition add_numbers (a b : operand) : M value :=
  binary_add a b.




End Dyn.

Section TestScript.

Variable float_repr : spec_float -> string.

(** The test runner is not part of the repository: importing it and
    running a session are whatever computations the installed pytest
    makes them; [pytest.main] returns the session's exit code. *)
Variable import_pytest : M unit.
Variable pytest_main : list string -> M Z.

(** The top level of [test_demo_python.py], run with [__name__] bound to
    [name] and [__file__] to [file]: the two imports (importing
    [demo_python] runs its body under its own name), the three [def]s,
    which only bind names, and the guarded call whose value is dropped. *)
Definition test_module_body (name file : string) : M unit :=
  import_pytest ;;
  module_body float_repr "demo_python" ;;
  if String.eqb name "__main__" then
    _ <- pytest_main [file] ;; ret tt
  else ret tt.


End TestScript.

(* ===================================================================== *)
(** ** Facts about the runtime layer *)
(* ===================================================================== *)

Module FloatFacts.

Lemma add_comm (x y : spec_float) : Float.add x y = Float.add y x.
Proof.
  unfold Float.add.
  destruct x as [sx | sx | | sx mx ex], y as [sy | sy | | sy my ey];
    try reflexivity;
    try (destruct sx, sy; reflexivity).
  unfold SFadd. rewrite (Z.min_comm ey ex). f_equal. apply Z.add_comm.
Qed.

Lemma compare_refl (f : spec_float) :
  f <> S754_nan -> SFcompare f f = Some Eq.
Proof.
  destruct f as [s | s | | s m e]; intros Hnan; simpl.
  - reflexivity.
  - destruct s; reflexivity.
  - contradiction.
  - rewrite Z.compare_refl.
    change (Pos.compare_cont Eq m m) with (Pos.compare m m).
    rewrite Pos.compare_refl. destruct s; reflexivity.
Qed.

Lemma eqb_refl (f : spec_float) : f <> S754_nan -> Float.eqb f f = true.
Proof.
  intros H. unfold Float.eqb, SFeqb. rewrite (compare_refl f H). reflexivity.
Qed.

End FloatFacts.

Lemma py_eq_refl (v : value) : is_nan v = false -> py_eq v v = true.
Proof.
  destruct v as [ | b | z | f | s]; simpl; intros H.
  - reflexivity.
  - destruct b; reflexivity.
  - apply Z.eqb_refl.
  - apply FloatFacts.eqb_refl. intros ->. discriminate.
  - apply String.eqb_refl.
Qed.

(** A numeric value is a bool, an int or a float. *)
Lemma is_numeric_cases (v : value) :
  is_numeric v = true ->
  (exists z, long_value v = Some z /\ (v = VInt z \/ exists b, v = VBool b))
  \/ (exists f, v = VFloat f).
Proof.
  destruct v as [ | b | z | f | s]; cbn; intros H; try discriminate.
  - left. exists (Z.b2z b). split; [reflexivity | right; now exists b].
  - left. exists z. split; [reflexivity | now left].
  - right. now exists f.
Qed.

(** On two integers [+] is the integer slot. *)
Lemma PyNumber_Add_long (v w : value) (a b : Z) :
  long_value v = Some a -> long_value w = Some b ->
  PyNumber_Add v w = Ok (VInt (a + b)).
Proof.
  destruct v; try discriminate; destruct w; try discriminate;
    cbn; intros [= <-] [= <-]; reflexivity.
Qed.

(** With a float on either side [+] is the float slot. *)
Lemma PyNumber_Add_float (v w : value) :
  is_numeric v = true -> is_numeric w = true ->
  is_float v || is_float w = true ->
  PyNumber_Add v w =
    match float_add v w with
    | Some r => r
    | None => Raise TypeError
    end
  /\ float_add v w <> None.
Proof.
  destruct v; try discriminate; destruct w; try discriminate;
    cbn; intros _ _ H; try discriminate;
    unfold PyNumber_Add, binary_op1, float_add; cbn;
    repeat match goal with
           | |- context [Float.PyLong_AsDouble ?z] =>
               destruct (Float.PyLong_AsDouble z)
           end;
    split; (reflexivity || discriminate).
Qed.

(** The only exception a conversion raises is [OverflowError]. *)
Lemma convert_to_double_raises (v : value) (e : exn) :
  convert_to_double v = Some (Raise e) ->
  e = OverflowError /\
  exists z, long_value v = Some z /\ Float.PyLong_AsDouble z = Raise OverflowError.
Proof.
  unfold convert_to_double.
  destruct v as [ | b | z | f | s]; cbn; try discriminate.
  - unfold Float.PyLong_AsDouble.
    destruct (Float.of_scaled (Z.b2z b) 0) eqn:E; try discriminate.
    intros [= <-]. split; [reflexivity | ].
    exists (Z.b2z b). split; [reflexivity | ].
    unfold Float.PyLong_AsDouble. now rewrite E.
  - unfold Float.PyLong_AsDouble.
    destruct (Float.of_scaled z 0) eqn:E; try discriminate.
    intros [= <-]. split; [reflexivity | ].
    exists z. split; [reflexivity | ].
    unfold Float.PyLong_AsDouble. now rewrite E.
Qed.

Lemma convert_to_double_numeric (v : value) :
  is_numeric v = true -> convert_to_double v <> None.
Proof.
  destruct v; cbn; intros H; (discriminate H || discriminate).
Qed.

Lemma float_add_comm (v w : value) :
  is_numeric v = true -> is_numeric w = true ->
  float_add v w = float_add w v.
Proof.
  intros Hv Hw.
  apply convert_to_double_numeric in Hv, Hw.
  unfold float_add.
  destruct (convert_to_double v) as [[a | e] | ] eqn:Ev,
           (convert_to_double w) as [[b | e'] | ] eqn:Ew;
    try reflexivity; try contradiction.
  - now rewrite FloatFacts.add_comm.
  - apply convert_to_double_raises in Ev, Ew.
    destruct Ev as [-> _], Ew as [-> _]. reflexivity.
Qed.

Lemma string_app_assoc (s t u : string) : ((s ++ t) ++ u = s ++ (t ++ u))%string.
Proof.
  induction s as [ | c s IH]; simpl; [reflexivity | now rewrite IH].
Qed.

Lemma string_length_app (s t : string) :
  String.length (s ++ t) = (String.length s + String.length t)%nat.
Proof.
  induction s as [ | c s IH]; simpl; [reflexivity | now rewrite IH].
Qed.

Lemma string_app_empty_r (s : string) : (s ++ "")%string = s.
Proof.
  induction s as [ | c s IH]; simpl; [reflexivity | now rewrite IH].
Qed.

(** [+] on two numbers does not depend on the order of the operands: the
    same value, or the same exception. *)
Lemma PyNumber_Add_comm (a b : value) :
  is_numeric a = true -> is_numeric b = true ->
  PyNumber_Add a b = PyNumber_Add b a.
Proof.
  intros Ha Hb.
  destruct (is_float a || is_float b) eqn:Hf.
  - destruct (PyNumber_Add_float a b Ha Hb Hf) as [-> _].
    rewrite orb_comm in Hf.
    destruct (PyNumber_Add_float b a Hb Ha Hf) as [-> _].
    now rewrite (float_add_comm a b Ha Hb).
  - apply orb_false_elim in Hf as [Hfa Hfb].
    destruct (is_numeric_cases a Ha) as [(x & Hx & _) | (f & ->)];
      [ | discriminate Hfa].
    destruct (is_numeric_cases b Hb) as [(y & Hy & _) | (f & ->)];
      [ | discriminate Hfb].
    rewrite (PyNumber_Add_long a b x y Hx Hy), (PyNumber_Add_long b a y x Hy Hx).
    now rewrite Z.add_comm.
Qed.

(** A sum of two numbers is never [None], a [bool] or a [str], and the
    only exception is the conversion's [OverflowError]. *)
Lemma PyNumber_Add_numeric_outcome (a b : value) :
  is_numeric a = true -> is_numeric b = true ->
  (exists z, PyNumber_Add a b = Ok (VInt z))
  \/ (exists f, PyNumber_Add a b = Ok (VFloat f))
  \/ PyNumber_Add a b = Raise OverflowError.
Proof.
  intros Ha Hb.
  destruct (is_float a || is_float b) eqn:Hf.
  - destruct (PyNumber_Add_float a b Ha Hb Hf) as [-> Hne].
    unfold float_add in *.
    destruct (convert_to_double a) as [[x | e] | ] eqn:Ea; try contradiction.
    + destruct (convert_to_double b) as [[y | e] | ] eqn:Eb; try contradiction.
      * right. left. now eexists.
      * apply convert_to_double_raises in Eb as [-> _]. now right; right.
    + apply convert_to_double_raises in Ea as [-> _]. now right; right.
  - apply orb_false_elim in Hf as [Hfa Hfb].
    destruct (is_numeric_cases a Ha) as [(x & Hx & _) | (f & ->)];
      [ | discriminate Hfa].
    destruct (is_numeric_cases b Hb) as [(y & Hy & _) | (f & ->)];
      [ | discriminate Hfb].
    left. exists (x + y). now apply PyNumber_Add_long.
Qed.

(* ===================================================================== *)
(** ** More on the runtime's floats *)
(* ===================================================================== *)

Module RoundingFacts.

Lemma shr_1_nonneg (mrs : shr_record) :
  0 <= shr_m mrs -> 0 <= shr_m (shr_1 mrs).
Proof.
  destruct mrs as [m r s]. simpl.
  destruct m as [ | [p | p | ] | p ]; simpl; lia.
Qed.

Lemma iter_shr_1_nonneg (p : positive) :
  forall mrs, 0 <= shr_m mrs -> 0 <= shr_m (iter_pos shr_1 p mrs).
Proof.
  induction p as [p IH | p IH | ]; intros mrs H; simpl.
  - apply IH, IH, shr_1_nonneg, H.
  - apply IH, IH, H.
  - apply shr_1_nonneg, H.
Qed.

Lemma shr_fexp_nonneg (prec emax m e : Z) (l : location) :
  0 <= m -> 0 <= shr_m (fst (shr_fexp prec emax m e l)).
Proof.
  intros H. unfold shr_fexp, shr.
  assert (H0 : 0 <= shr_m (shr_record_of_loc m l))
    by (destruct l as [ | [ | | ]]; exact H).
  destruct (fexp prec emax (Zdigits2 m + e) - e); simpl; try exact H0.
  now apply iter_shr_1_nonneg.
Qed.

Lemma round_nearest_even_nonneg (m : Z) (l : location) :
  0 <= m -> 0 <= round_nearest_even m l.
Proof.
  intros H. destruct l as [ | [ | | ]]; simpl; try lia.
  destruct (Z.even m); lia.
Qed.

Lemma binary_round_aux_not_nan (prec emax : Z) (sx : bool) (m e : Z) (l : location) :
  0 <= m -> binary_round_aux prec emax sx m e l <> S754_nan.
Proof.
  intros H. unfold binary_round_aux.
  pose proof (shr_fexp_nonneg prec emax m e l H) as H1.
  destruct (shr_fexp prec emax m e l) as [mrs1 e1]. simpl in H1.
  pose proof (shr_fexp_nonneg prec emax
                (round_nearest_even (shr_m mrs1) (loc_of_shr_record mrs1))
                e1 loc_Exact (round_nearest_even_nonneg _ _ H1)) as H2.
  destruct (shr_fexp prec emax _ e1 loc_Exact) as [mrs2 e2]. simpl in H2.
  destruct (shr_m mrs2) as [ | q | q]; try discriminate; try lia.
  destruct (e2 <=? emax - prec); discriminate.
Qed.

(** Rounding a scaled integer never produces NaN. *)
Lemma of_scaled_not_nan (m e : Z) : Float.of_scaled m e <> S754_nan.
Proof.
  unfold Float.of_scaled, binary_normalize, binary_round.
  destruct m as [ | p | p]; try discriminate.
  - destruct (shl_align p e _) as [mz ez].
    apply binary_round_aux_not_nan. lia.
  - destruct (shl_align p e _) as [mz ez].
    apply binary_round_aux_not_nan. lia.
Qed.

End RoundingFacts.

(** What an int converts to is a zero or a finite double. *)
Lemma PyLong_AsDouble_finite (z : Z) (f : spec_float) :
  Float.PyLong_AsDouble z = Ok f ->
  is_finite (VFloat f) = true.
Proof.
  unfold Float.PyLong_AsDouble.
  pose proof (RoundingFacts.of_scaled_not_nan z 0) as Hnan.
  destruct (Float.of_scaled z 0); try discriminate; intros [= <-];
    (reflexivity || contradiction).
Qed.

Lemma float_add_zero_r (f : spec_float) :
  f <> S754_nan -> Float.eqb (Float.add f (S754_zero false)) f = true.
Proof.
  intros H. destruct f as [[ | ] | [ | ] | | s m e]; try reflexivity.
  - contradiction.
  - apply FloatFacts.eqb_refl. discriminate.
Qed.

Lemma float_add_opp (f : spec_float) :
  is_finite (VFloat f) = true ->
  Float.eqb_int 0 (Float.add (SFopp f) f) = true.
Proof.
  destruct f as [[ | ] | s | | s m e]; try discriminate; try reflexivity.
  intros _. unfold Float.add. simpl SFopp. unfold SFadd.
  rewrite Z.min_id. unfold shl_align. rewrite Z.sub_diag. simpl fst.
  replace (cond_Zopp (negb s) (Z.pos m) + cond_Zopp s (Z.pos m)) with 0
    by (destruct s; cbv [cond_Zopp negb]; lia).
  reflexivity.
Qed.

(** With a float on one side, [+] raises exactly when an operand is an
    int out of a double's range, and returns a float otherwise. *)
Lemma PyNumber_Add_float_outcome (a b : value) :
  is_numeric a = true -> is_numeric b = true ->
  is_float a || is_float b = true ->
  if overflows a || overflows b then PyNumber_Add a b = Raise OverflowError
  else exists x y, convert_to_double a = Some (Ok x)
                   /\ convert_to_double b = Some (Ok y)
                   /\ PyNumber_Add a b = Ok (VFloat (Float.add x y)).
Proof.
  intros Ha Hb Hf.
  destruct (PyNumber_Add_float a b Ha Hb Hf) as [-> _].
  pose proof (convert_to_double_numeric a Ha) as Na.
  pose proof (convert_to_double_numeric b Hb) as Nb.
  unfold overflows, float_add.
  destruct (convert_to_double a) as [[x | e] | ] eqn:Ea; try contradiction;
    destruct (convert_to_double b) as [[y | e'] | ] eqn:Eb; try contradiction;
    simpl.
  - now exists x, y.
  - now apply convert_to_double_raises in Eb as [-> _].
  - now apply convert_to_double_raises in Ea as [-> _].
  - now apply convert_to_double_raises in Ea as [-> _].
Qed.

(* ===================================================================== *)
(** ** The runtime layer on concrete operands *)
(* ===================================================================== *)

Example bool_plus_bool_is_int :
  PyNumber_Add (VBool true) (VBool true) = Ok (VInt 2).
Proof. reflexivity. Qed.

Example bool_plus_float_is_float :
  PyNumber_Add (VBool true) (VFloat Float.lit_2_0) = Ok (VFloat Float.lit_3_0).
Proof. reflexivity. Qed.

Example none_plus_int_is_type_error :
  PyNumber_Add VNone (VInt 1) = Raise TypeError
  /\ PyNumber_Add (VInt 1) VNone = Raise TypeError
  /\ PyNumber_Add (VStr "a") (VFloat Float.lit_1_0) = Raise TypeError
  /\ PyNumber_Add (VFloat Float.lit_1_0) (VStr "a") = Raise TypeError.
Proof. repeat split. Qed.

(** The largest integer that still converts is just below the midpoint
    between the largest double and [2^1024]. *)
Example largest_convertible_int :
  Float.PyLong_AsDouble (2 ^ 1024 - 2 ^ 970 - 1)
  = Ok (S754_finite false (2 ^ 53 - 1) 971)
  /\ Float.PyLong_AsDouble (2 ^ 1024 - 2 ^ 970) = Raise OverflowError.
Proof. split; vm_compute; reflexivity. Qed.

(** Unlike the integer path, the float path rounds: [2.0**53 + 1]. *)
Example float_path_rounds :
  PyNumber_Add (VFloat (Float.of_scaled (2 ^ 53) 0)) (VInt 1)
  = Ok (VFloat (Float.of_scaled (2 ^ 53) 0)).
Proof. vm_compute. reflexivity. Qed.

Example inf_minus_inf_is_nan :
  PyNumber_Add (VFloat (S754_infinity false)) (VFloat (S754_infinity true))
  = Ok (VFloat S754_nan).
Proof. reflexivity. Qed.

Example eq_across_numeric_types :
  py_eq (VInt 3) (VFloat Float.lit_3_0) = true
  /\ py_eq (VBool true) (VInt 1) = true
  /\ py_eq (VFloat Float.lit_2_5) (VInt 2) = false
  /\ py_eq (VStr "5") (VInt 5) = false
  /\ py_eq (VFloat S754_nan) (VFloat S754_nan) = false.
Proof. repeat split. Qed.

(** Imported under its own name, the module prints nothing. *)
Example module_imported_is_silent
        (float_repr : spec_float -> string) (w : World) :
  module_body float_repr "demo_python" w = (Ok tt, w).
Proof. reflexivity. Qed.

(* ===================================================================== *)
(** ** The greeting *)
(* ===================================================================== *)

(** C2: [hello_world()] takes no argument and returns exactly the string
    "Hello, World from Python CI!", an instance of [str], in whatever world
    it is called and without touching it; [test_hello_world] passes. *)
Theorem hello_world_returns_greeting (w : World) :
  (exists r, hello_world w = (Ok r, w)
             /\ r = VStr "Hello, World from Python CI!"
             /\ isinstance r TStr = true)
  /\ test_hello_world w = (Ok tt, w).
Proof.
  split.
  - exists (VStr "Hello, World from Python CI!"). repeat split.
  - reflexivity.
Qed.

(* ===================================================================== *)
(** ** Integer addition *)
(* ===================================================================== *)

(** C1: for all integers [a] and [b], [add_numbers(a, b)] returns [a + b],
    and what it returns is an [int]. *)
Theorem add_numbers_int_sum (a b : Z) (w : World) :
  exists r, add_numbers (VInt a) (VInt b) w = (Ok r, w)
            /\ r = VInt (a + b)
            /\ type_of r = TInt
            /\ py_eq r (VInt (a + b)) = true.
Proof.
  exists (VInt (a + b)). repeat split.
  simpl. apply Z.eqb_refl.
Qed.

(** C7: the four equations of [test_add_numbers] hold, and the test
    function runs through all four assertions. *)
Theorem add_numbers_examples (w : World) :
  eq_expr (add_numbers (VInt 2) (VInt 3)) (VInt 5) w = (Ok true, w)
  /\ eq_expr (add_numbers (VInt 0) (VInt 0)) (VInt 0) w = (Ok true, w)
  /\ eq_expr (add_numbers (VInt (-1)) (VInt 1)) (VInt 0) w = (Ok true, w)
  /\ eq_expr (add_numbers (VInt 10) (VInt (-5))) (VInt 5) w = (Ok true, w)
  /\ test_add_numbers w = (Ok tt, w).
Proof.
  repeat split.
Qed.

(** C8: integer addition is exact and unbounded.  The call never raises,
    subtracting either operand from the result gives back the other (no
    precision is lost), and stepping past the largest [n]-bit value, in
    either direction and for every [n], does not wrap around. *)
Theorem add_numbers_int_exact_unbounded (a b : Z) (n : nat) (w : World) :
  (exists r, add_numbers (VInt a) (VInt b) w = (Ok (VInt r), w)
             /\ r - b = a /\ r - a = b)
  /\ add_numbers (VInt (2 ^ Z.of_nat n - 1)) (VInt 1) w
     = (Ok (VInt (2 ^ Z.of_nat n)), w)
  /\ add_numbers (VInt (- 2 ^ Z.of_nat n)) (VInt (-1)) w
     = (Ok (VInt (- 2 ^ Z.of_nat n - 1)), w)
  /\ (0 < 2 ^ Z.of_nat n < 2 ^ Z.of_nat n + 2 ^ Z.of_nat n
      /\ add_numbers (VInt (2 ^ Z.of_nat n)) (VInt (2 ^ Z.of_nat n)) w
         = (Ok (VInt (2 ^ Z.of_nat (S n))), w)).
Proof.
  assert (Hpos : 0 < 2 ^ Z.of_nat n) by (apply Z.pow_pos_nonneg; lia).
  split; [ | split; [ | split; [ | split; [ lia | ]]]].
  - exists (a + b). repeat split; lia.
  - unfold add_numbers, lift. cbn -[Z.of_nat Z.pow]. do 3 f_equal. lia.
  - unfold add_numbers, lift. cbn -[Z.of_nat Z.pow]. do 3 f_equal.
  - unfold add_numbers, lift. cbn -[Z.of_nat Z.pow]. do 3 f_equal.
    rewrite Nat2Z.inj_succ, Z.pow_succ_r by lia. lia.
Qed.

(* ===================================================================== *)
(** ** Strings *)
(* ===================================================================== *)

(** C10: on two strings [add_numbers] raises nothing and returns their
    concatenation; [add_numbers("ab", "cd")] is ["abcd"]. *)
Theorem add_numbers_str_concat (s t : string) (w : World) :
  add_numbers (VStr s) (VStr t) w = (Ok (VStr (s ++ t)), w)
  /\ add_numbers (VStr "ab") (VStr "cd") w = (Ok (VStr "abcd"), w).
Proof.
  split; reflexivity.
Qed.

(* ===================================================================== *)
(** ** Purity *)
(* ===================================================================== *)











(* ===================================================================== *)
(** ** Commutativity *)
(* ===================================================================== *)

(** C3, as stated, fails at a NaN operand: [nan + 1.0] and [1.0 + nan] are
    both NaN, and [==] on two NaNs is [False]. *)
Lemma add_numbers_nan_not_eq_swapped :
  is_numeric (VFloat S754_nan) = true
  /\ is_numeric (VFloat Float.lit_1_0) = true
  /\ add_eq_swapped (VFloat S754_nan) (VFloat Float.lit_1_0) init_world
     = (Ok false, init_world).
Proof.
  repeat split.
Qed.

Lemma float_eqb_self (r : spec_float) :
  Float.eqb r r = negb (is_nan (VFloat r)).
Proof.
  destruct r as [s | s | | s m e]; try reflexivity.
  - now destruct s.
  - simpl. apply FloatFacts.eqb_refl. discriminate.
Qed.

(** A float sum is NaN exactly for a NaN operand or opposite infinities. *)
Lemma float_add_is_nan (x y : spec_float) :
  is_nan (VFloat (Float.add x y)) = nan_sum (VFloat x) (VFloat y).
Proof.
  destruct x as [sx | sx | | sx mx ex], y as [sy | sy | | sy my ey];
    try reflexivity;
    try (destruct sx, sy; reflexivity).
  unfold nan_sum. simpl.
  pose proof (RoundingFacts.of_scaled_not_nan
                (cond_Zopp sx (Z.pos (fst (shl_align mx ex (Z.min ex ey))))
                 + cond_Zopp sy (Z.pos (fst (shl_align my ey (Z.min ex ey)))))
                (Z.min ex ey)) as H.
  unfold Float.of_scaled in H. unfold Float.add, SFadd.
  destruct (binary_normalize _ _ _ _ _); try reflexivity. contradiction.
Qed.

(** For what [+] makes of it, a number is the float it converts to. *)
Lemma nan_sum_converted (a b : value) (x y : spec_float) :
  is_numeric a = true -> is_numeric b = true ->
  convert_to_double a = Some (Ok x) -> convert_to_double b = Some (Ok y) ->
  nan_sum a b = nan_sum (VFloat x) (VFloat y).
Proof.
  assert (Hconv : forall v z, is_numeric v = true ->
                              convert_to_double v = Some (Ok z) ->
                              v = VFloat z
                              \/ (is_float v = false
                                  /\ is_finite (VFloat z) = true)).
  { intros v z Hv Hz.
    destruct v as [ | c | n | f | s]; try discriminate Hv; cbn in Hz.
    - right. split; [reflexivity | ].
      destruct (Float.PyLong_AsDouble (Z.b2z c)) eqn:E; inversion Hz; subst.
      now apply PyLong_AsDouble_finite in E.
    - right. split; [reflexivity | ].
      destruct (Float.PyLong_AsDouble n) eqn:E; inversion Hz; subst.
      now apply PyLong_AsDouble_finite in E.
    - left. now inversion Hz. }
  intros Ha Hb Hx Hy.
  destruct (Hconv a x Ha Hx) as [-> | [Hfa Hfx]],
           (Hconv b y Hb Hy) as [-> | [Hfb Hfy]]; try reflexivity.
  - destruct b; try discriminate; destruct y as [ | | | ];
      try discriminate; destruct x as [ | [ | ] | | ]; reflexivity.
  - destruct a; try discriminate; destruct x as [ | | | ];
      try discriminate; destruct y as [ | [ | ] | | ]; reflexivity.
  - destruct a; try discriminate; destruct b; try discriminate;
      destruct x; try discriminate; destruct y; try discriminate; reflexivity.
Qed.

(** C3 (amended): for all numeric [a] and [b], [add_numbers(a, b)] and
    [add_numbers(b, a)] have the same outcome.  With a float among the
    operands and an int among them out of a double's range, both calls
    raise [OverflowError] (two ints never do).  Otherwise both return a
    value, and [add_numbers(a, b) == add_numbers(b, a)] is [True] unless an
    operand is NaN or the operands are infinities of opposite sign: then
    both calls return NaN and the comparison is [False]. *)
Theorem add_numbers_commutative (a b : value) (w : World) :
  is_numeric a = true -> is_numeric b = true ->
  add_numbers a b w = add_numbers b a w
  /\ add_eq_swapped a b w
     = (if (is_float a || is_float b) && (overflows a || overflows b)
        then Raise OverflowError
        else Ok (negb (nan_sum a b)), w)
  /\ (if (is_float a || is_float b) && (overflows a || overflows b)
      then add_numbers a b w = (Raise OverflowError, w)
      else if nan_sum a b
           then add_numbers a b w = (Ok (VFloat S754_nan), w)
           else exists r, add_numbers a b w = (Ok r, w) /\ is_nan r = false).
Proof.
  intros Ha Hb.
  unfold add_eq_swapped, add_numbers, bind, lift, ret.
  rewrite <- (PyNumber_Add_comm a b Ha Hb).
  split; [reflexivity | ].
  destruct (is_float a || is_float b) eqn:Hf; simpl andb.
  - pose proof (PyNumber_Add_float_outcome a b Ha Hb Hf) as H.
    destruct (overflows a || overflows b).
    + rewrite H. now split.
    + destruct H as (x & y & Hx & Hy & ->).
      simpl py_eq. rewrite float_eqb_self, float_add_is_nan.
      rewrite (nan_sum_converted a b x y Ha Hb Hx Hy).
      split; [reflexivity | ].
      destruct (nan_sum (VFloat x) (VFloat y)) eqn:Hnan.
      * rewrite <- float_add_is_nan in Hnan.
        destruct (Float.add x y); try discriminate Hnan. reflexivity.
      * rewrite <- float_add_is_nan in Hnan. now eexists.
  - apply orb_false_elim in Hf as [Hfa Hfb].
    destruct (is_numeric_cases a Ha) as [(x & Hx & _) | (f & ->)];
      [ | discriminate Hfa].
    destruct (is_numeric_cases b Hb) as [(y & Hy & _) | (f & ->)];
      [ | discriminate Hfb].
    rewrite (PyNumber_Add_long a b x y Hx Hy).
    assert (Hnan : nan_sum a b = false)
      by (destruct a, b; try discriminate; reflexivity).
    rewrite Hnan. simpl. rewrite Z.eqb_refl.
    split; [reflexivity | now eexists].
Qed.

Lemma add_numbers_commutative_witness :
  add_numbers (VInt (10 ^ 400)) (VInt 1) init_world
  = add_numbers (VInt 1) (VInt (10 ^ 400)) init_world
  /\ add_eq_swapped (VInt (10 ^ 400)) (VInt 1) init_world
     = (if (is_float (VInt (10 ^ 400)) || is_float (VInt 1))
           && (overflows (VInt (10 ^ 400)) || overflows (VInt 1))
        then Raise OverflowError
        else Ok (negb (nan_sum (VInt (10 ^ 400)) (VInt 1))), init_world)
  /\ (if (is_float (VInt (10 ^ 400)) || is_float (VInt 1))
         && (overflows (VInt (10 ^ 400)) || overflows (VInt 1))
      then add_numbers (VInt (10 ^ 400)) (VInt 1) init_world
           = (Raise OverflowError, init_world)
      else if nan_sum (VInt (10 ^ 400)) (VInt 1)
           then add_numbers (VInt (10 ^ 400)) (VInt 1) init_world
                = (Ok (VFloat S754_nan), init_world)
           else exists r, add_numbers (VInt (10 ^ 400)) (VInt 1) init_world
                          = (Ok r, init_world) /\ is_nan r = false).
Proof.
  apply (add_numbers_commutative (VInt (10 ^ 400)) (VInt 1) init_world);
    reflexivity.
Defined.

(* ===================================================================== *)
(** ** Promotion to float *)
(* ===================================================================== *)




(* ===================================================================== *)
(** ** Operands that are not numbers *)
(* ===================================================================== *)

(** C5, as stated, fails on two strings: neither is numeric, and the call
    returns their concatenation instead of raising [TypeError]. *)
Lemma add_numbers_strings_raise_nothing :
  is_numeric (VStr "ab") = false
  /\ is_numeric (VStr "cd") = false
  /\ add_numbers (VStr "ab") (VStr "cd") init_world
     = (Ok (VStr "abcd"), init_world)
  /\ add_numbers (VStr "ab") (VStr "cd") init_world
     <> (Raise TypeError, init_world).
Proof.
  repeat split. discriminate.
Qed.

(** C5 (amended): among operands that are None, a bool, an int, a float
    or a str, when an operand is not numeric and the operands are not both
    strings, the call fails with [TypeError]; the function does not catch
    or translate it, so whatever the caller meant to do with the result is
    skipped and the caller gets the same [TypeError]. *)
Theorem add_numbers_type_error (a b : value) (w : World) :
  is_numeric a && is_numeric b = false ->
  is_str a && is_str b = false ->
  add_numbers a b w = (Raise TypeError, w)
  /\ forall (B : Type) (k : value -> M B),
       (r <- add_numbers a b ;; k r) w = (Raise TypeError, w).
Proof.
  intros Hnum Hstr.
  assert (H : PyNumber_Add a b = Raise TypeError).
  { destruct a, b; try discriminate Hnum; try discriminate Hstr; reflexivity. }
  unfold bind, add_numbers, lift. rewrite H. split; [reflexivity | now intros].
Qed.

Lemma add_numbers_type_error_witness :
  add_numbers (VInt 1) (VStr "x") init_world = (Raise TypeError, init_world)
  /\ forall (B : Type) (k : value -> M B),
       (r <- add_numbers (VInt 1) (VStr "x") ;; k r) init_world
       = (Raise TypeError, init_world).
Proof.
  apply (add_numbers_type_error (VInt 1) (VStr "x") init_world); reflexivity.
Defined.

(* ===================================================================== *)
(** ** Running the module *)
(* ===================================================================== *)

(** Writing to a standard output that takes the text adds it, in order, to
    what the file has or will have received, whatever the buffering. *)
Lemma write_accepting (s : string) (w : World) (m : buffering) :
  sys_stdout w = Some m -> accepts w = true ->
  exists w', write s w = (Ok tt, w')
             /\ sys_stdout w' = Some m /\ accepts w' = true
             /\ (stdout w' ++ pending w' = (stdout w ++ pending w) ++ s)%string.
Proof.
  intros Hm Ha. unfold write. rewrite Hm.
  destruct m; unfold bind, buffer_text, flush, ret; simpl; rewrite ?Ha.
  - eexists. repeat split; simpl; try assumption.
    now rewrite string_app_empty_r, string_app_assoc.
  - destruct (has_line_end s); simpl; rewrite ?Ha;
      eexists; repeat split; simpl; try assumption;
      now rewrite ?string_app_empty_r, ?string_app_assoc.
  - destruct (DEFAULT_BUFFER_SIZE <? _); simpl; rewrite ?Ha;
      eexists; repeat split; simpl; try assumption;
      now rewrite ?string_app_empty_r, ?string_app_assoc.
Qed.

Lemma print_accepting
      (float_repr : spec_float -> string) (v : value) (w : World) (m : buffering) :
  sys_stdout w = Some m -> accepts w = true ->
  exists w', print float_repr v w = (Ok tt, w')
             /\ sys_stdout w' = Some m /\ accepts w' = true
             /\ (stdout w' ++ pending w'
                 = (stdout w ++ pending w) ++ py_str float_repr v ++ newline)%string.
Proof.
  intros Hm Ha. unfold print. rewrite Hm. unfold bind.
  destruct (write_accepting (py_str float_repr v) w m Hm Ha)
    as (w1 & -> & Hm1 & Ha1 & Ht1).
  destruct (write_accepting newline w1 m Hm1 Ha1)
    as (w2 & -> & Hm2 & Ha2 & Ht2).
  exists w2. repeat split; try assumption.
  now rewrite Ht2, Ht1, string_app_assoc.
Qed.

Lemma module_body_accepting
      (float_repr : spec_float -> string) (w : World) (m : buffering) :
  sys_stdout w = Some m -> accepts w = true ->
  exists w', module_body float_repr "__main__" w = (Ok tt, w')
             /\ sys_stdout w' = Some m /\ accepts w' = true
             /\ (stdout w' ++ pending w'
                 = (stdout w ++ pending w)
                   ++ "Hello, World from Python CI!" ++ newline
                   ++ "2 + 3 = 5" ++ newline)%string.
Proof.
  intros Hm Ha. unfold module_body.
  change ("__main__" =? "__main__")%string with true.
  unfold bind, hello_world, ret, add_numbers, lift. cbv beta iota.
  destruct (print_accepting float_repr
              (VStr "Hello, World from Python CI!") w m Hm Ha)
    as (w1 & E1 & Hm1 & Ha1 & Ht1).
  rewrite E1.
  change (PyNumber_Add (VInt 2) (VInt 3)) with (Ok (VInt 5)).
  destruct (print_accepting float_repr
              (VStr ("2 + 3 = " ++ py_str float_repr (VInt 5)))
              w1 m Hm1 Ha1)
    as (w2 & E2 & Hm2 & Ha2 & Ht2).
  rewrite E2.
  exists w2. repeat split; try assumption.
  rewrite Ht2, Ht1. simpl py_str. now rewrite !string_app_assoc.
Qed.

(** C6, as stated, fails when standard output does not take the text:
    redirected to a full device, both lines stay in the buffer, the flush
    at exit fails, nothing is printed and the status is 120. *)
Lemma run_script_full_device_exits_120 :
  run_script (fun _ => "") (Build_World "" "" (Some BlockBuffered) false)
  = (120,
     Build_World ""
                 ("Hello, World from Python CI!" ++ newline
                  ++ "2 + 3 = 5" ++ newline)
                 (Some BlockBuffered) false).
Proof.
  vm_compute. reflexivity.
Qed.

(** C6 (amended): run as a program with a standard output that takes what
    it is handed, however it is buffered, the module gets the greeting and
    then the line [2 + 3 = 5] onto standard output, after whatever was
    there or still buffered, leaves nothing in the buffer, and the
    interpreter exits with status 0. *)
Theorem run_script_prints_and_exits_0
        (float_repr : spec_float -> string) (w : World) (m : buffering) :
  sys_stdout w = Some m -> accepts w = true ->
  run_script float_repr w
  = (0, Build_World (stdout w ++ pending w
                     ++ "Hello, World from Python CI!" ++ newline
                     ++ "2 + 3 = 5" ++ newline)
                    "" (Some m) true).
Proof.
  intros Hm Ha. unfold run_script.
  destruct (module_body_accepting float_repr w m Hm Ha)
    as (w' & -> & Hm' & Ha' & Ht).
  rewrite Hm'. unfold flush. rewrite Ha', Hm', Ht.
  now rewrite string_app_assoc.
Qed.

Lemma run_script_prints_and_exits_0_witness :
  run_script (fun _ => "") (Build_World "" "" (Some BlockBuffered) true)
  = (0, Build_World ("" ++ ""
                     ++ "Hello, World from Python CI!" ++ newline
                     ++ "2 + 3 = 5" ++ newline)
                    "" (Some BlockBuffered) true).
Proof.
  apply (run_script_prints_and_exits_0
           (fun _ => "") (Build_World "" "" (Some BlockBuffered) true)
           BlockBuffered); reflexivity.
Defined.

(** X12: run as a program from a fresh process whose standard output is
    closed or refuses what it is handed, the module prints nothing.  With
    standard output closed the prints do nothing and the status is 0;
    unbuffered, the first print raises [OSError] and the status is 1;
    line-buffered, the first print raises at its line end and the failing
    flush at exit makes the status 120; block-buffered, both prints
    succeed into the buffer and the failing flush at exit makes it 120. *)
Theorem run_script_unusable_stdout
        (float_repr : spec_float -> string) (w : World) :
  pending w = "" ->
  sys_stdout w = None \/ accepts w = false ->
  run_script float_repr w
  = match sys_stdout w with
    | None => (0, w)
    | Some Unbuffered => (1, w)
    | Some LineBuffered =>
        (120, Build_World (stdout w)
                          ("Hello, World from Python CI!" ++ newline)
                          (Some LineBuffered) false)
    | Some BlockBuffered =>
        (120, Build_World (stdout w)
                          ("Hello, World from Python CI!" ++ newline
                           ++ "2 + 3 = 5" ++ newline)
                          (Some BlockBuffered) false)
    end.
Proof.
  destruct w as [out pend so acc]. simpl. intros -> H.
  destruct so as [[ | | ] | ]; [ | | | reflexivity];
    (destruct H as [H | ->]; [discriminate H | ]); reflexivity.
Qed.

Lemma run_script_unusable_stdout_witness :
  run_script (fun _ => "") (Build_World "" "" (Some LineBuffered) false)
  = match sys_stdout (Build_World "" "" (Some LineBuffered) false) with
    | None => (0, Build_World "" "" (Some LineBuffered) false)
    | Some Unbuffered => (1, Build_World "" "" (Some LineBuffered) false)
    | Some LineBuffered =>
        (120, Build_World
                (stdout (Build_World "" "" (Some LineBuffered) false))
                ("Hello, World from Python CI!" ++ newline)
                (Some LineBuffered) false)
    | Some BlockBuffered =>
        (120, Build_World
                (stdout (Build_World "" "" (Some LineBuffered) false))
                ("Hello, World from Python CI!" ++ newline
                 ++ "2 + 3 = 5" ++ newline)
                (Some BlockBuffered) false)
    end.
Proof.
  apply (run_script_unusable_stdout
           (fun _ => "") (Build_World "" "" (Some LineBuffered) false));
    [reflexivity | right; reflexivity].
Defined.

(* ===================================================================== *)
(** ** What [add_numbers] does on every pair of operands *)
(* ===================================================================== *)

(** X1: the operand types decide the outcome.  Two ints (bools count as 0
    and 1) give their exact sum as an [int]; two numbers with a float among
    them give a float, or [OverflowError] exactly when an int operand is
    out of a double's range; two strings give their concatenation; every
    other pair gives [TypeError].  The world is never touched. *)
Theorem add_numbers_result_table (a b : value) (w : World) :
  exists o, add_numbers a b w = (o, w) /\
    if is_int a && is_int b then
      exists x y, long_value a = Some x /\ long_value b = Some y
                  /\ o = Ok (VInt (x + y))
    else if is_numeric a && is_numeric b then
      if overflows a || overflows b then o = Raise OverflowError
      else exists f, o = Ok (VFloat f)
    else if is_str a && is_str b then
      exists s t, a = VStr s /\ b = VStr t /\ o = Ok (VStr (s ++ t))
    else o = Raise TypeError.
Proof.
  exists (PyNumber_Add a b). split; [reflexivity | ].
  destruct (is_int a && is_int b) eqn:Hint.
  - destruct a, b; try discriminate Hint; cbn; eauto.
  - destruct (is_numeric a && is_numeric b) eqn:Hnum.
    + apply andb_true_iff in Hnum as [Ha Hb].
      assert (Hf : is_float a || is_float b = true)
        by (destruct a, b; try discriminate; reflexivity).
      pose proof (PyNumber_Add_float_outcome a b Ha Hb Hf) as H.
      destruct (overflows a || overflows b); [exact H | ].
      destruct H as (x & y & _ & _ & ->). now eexists.
    + destruct (is_str a && is_str b) eqn:Hstr.
      * destruct a, b; try discriminate Hstr. cbn. eauto.
      * destruct a, b; try discriminate; reflexivity.
Qed.

(** X2: [add_numbers] raises [TypeError] exactly when the operands are
    neither two numbers nor two strings. *)
Theorem add_numbers_type_error_iff (a b : value) (w : World) :
  add_numbers a b w = (Raise TypeError, w)
  <-> (is_numeric a && is_numeric b = false
       /\ is_str a && is_str b = false).
Proof.
  unfold add_numbers, lift. split.
  - intros [= H].
    destruct (is_numeric a && is_numeric b) eqn:Hnum.
    + apply andb_true_iff in Hnum as [Ha Hb].
      destruct (PyNumber_Add_numeric_outcome a b Ha Hb)
        as [[z Hz] | [[f Hf] | Ho]]; congruence.
    + split; [reflexivity | ].
      destruct a, b; try reflexivity; discriminate.
  - intros [Hnum Hstr]. f_equal.
    destruct a, b; try discriminate Hnum; try discriminate Hstr; reflexivity.
Qed.

(* ===================================================================== *)
(** ** Nesting calls *)
(* ===================================================================== *)

(** X3: for operands that are each None, a bool, an int or a str (the
    built-in values other than floats), grouping does not matter:
    [add_numbers(add_numbers(a, b), c)] and
    [add_numbers(a, add_numbers(b, c))] return the same value or raise the
    same exception. *)
Theorem add_numbers_assoc_without_floats (a b c : value) (w : World) :
  is_float a = false -> is_float b = false -> is_float c = false ->
  (x <- add_numbers a b ;; add_numbers x c) w
  = (y <- add_numbers b c ;; add_numbers a y) w.
Proof.
  intros Ha Hb Hc. unfold bind, add_numbers, lift.
  destruct a, b, c; try discriminate; cbn;
    try reflexivity;
    try (now rewrite Z.add_assoc);
    try (now rewrite string_app_assoc).
Qed.

Lemma add_numbers_assoc_without_floats_witness :
  (x <- add_numbers (VStr "a") (VStr "b") ;; add_numbers x (VStr "c")) init_world
  = (y <- add_numbers (VStr "b") (VStr "c") ;; add_numbers (VStr "a") y) init_world.
Proof.
  apply (add_numbers_assoc_without_floats
           (VStr "a") (VStr "b") (VStr "c") init_world); reflexivity.
Defined.

(** With floats grouping matters, down to which call raises. *)
Example grouping_matters_with_floats :
  (x <- add_numbers (VInt (10 ^ 400)) (VInt (- 10 ^ 400)) ;;
   add_numbers x (VFloat Float.lit_1_0)) init_world
  = (Ok (VFloat Float.lit_1_0), init_world)
  /\ (y <- add_numbers (VInt (- 10 ^ 400)) (VFloat Float.lit_1_0) ;;
      add_numbers (VInt (10 ^ 400)) y) init_world
     = (Raise OverflowError, init_world).
Proof.
  split; vm_compute; reflexivity.
Qed.

(* ===================================================================== *)
(** ** Zero and negation *)
(* ===================================================================== *)

(** X4: adding the integer 0 on either side gives back a value [==] to the
    other operand, for every number except NaN: an int exactly, [True] as
    1, [-0.0] as [0.0], an infinity as itself. *)
Theorem add_numbers_zero_neutral (a : value) (w : World) :
  is_numeric a = true -> is_nan a = false ->
  eq_expr (add_numbers a (VInt 0)) a w = (Ok true, w)
  /\ eq_expr (add_numbers (VInt 0) a) a w = (Ok true, w).
Proof.
  intros Ha Hnan.
  assert (H : exists r, PyNumber_Add a (VInt 0) = Ok r /\ py_eq r a = true).
  { destruct a as [ | b | z | f | s]; try discriminate Ha.
    - exists (VInt (Z.b2z b + 0)). split; [reflexivity | ].
      destruct b; reflexivity.
    - exists (VInt (z + 0)). split; [reflexivity | ].
      simpl. rewrite Z.add_0_r. apply Z.eqb_refl.
    - exists (VFloat (Float.add f (S754_zero false))). split; [reflexivity | ].
      simpl. apply float_add_zero_r. intros ->. discriminate Hnan. }
  destruct H as (r & Hr & Heq).
  unfold eq_expr, add_numbers, bind, lift, ret.
  rewrite <- (PyNumber_Add_comm a (VInt 0) Ha eq_refl), Hr, Heq.
  now split.
Qed.

Lemma add_numbers_zero_neutral_witness :
  eq_expr (add_numbers (VFloat (S754_zero true)) (VInt 0))
          (VFloat (S754_zero true)) init_world = (Ok true, init_world)
  /\ eq_expr (add_numbers (VInt 0) (VFloat (S754_zero true)))
             (VFloat (S754_zero true)) init_world = (Ok true, init_world).
Proof.
  apply (add_numbers_zero_neutral (VFloat (S754_zero true)) init_world);
    reflexivity.
Defined.

(** X5: a finite number and its negation add up to something [== 0], in
    either order, as [add_numbers(-1, 1) == 0] does in the tests; the
    negation of a finite number is always defined. *)
Theorem add_numbers_negation_cancels (a : value) (w : World) :
  is_numeric a = true -> is_finite a = true ->
  exists n, PyNumber_Negative a = Ok n
            /\ eq_expr (add_numbers n a) (VInt 0) w = (Ok true, w)
            /\ eq_expr (add_numbers a n) (VInt 0) w = (Ok true, w).
Proof.
  intros Ha Hfin.
  assert (H : exists n r, PyNumber_Negative a = Ok n /\ is_numeric n = true
                          /\ PyNumber_Add n a = Ok r
                          /\ py_eq r (VInt 0) = true).
  { destruct a as [ | b | z | f | s]; try discriminate Ha.
    - exists (VInt (- Z.b2z b)), (VInt (- Z.b2z b + Z.b2z b)).
      repeat split. destruct b; reflexivity.
    - exists (VInt (- z)), (VInt (- z + z)). repeat split.
      simpl. rewrite Z.add_opp_diag_l. reflexivity.
    - exists (VFloat (SFopp f)), (VFloat (Float.add (SFopp f) f)).
      repeat split. simpl. now apply float_add_opp. }
  destruct H as (n & r & Hn & Hnum & Hr & Heq).
  exists n. split; [exact Hn | ].
  unfold eq_expr, add_numbers, bind, lift, ret.
  rewrite <- (PyNumber_Add_comm n a Hnum Ha), Hr, Heq.
  now split.
Qed.

Lemma add_numbers_negation_cancels_witness :
  exists n, PyNumber_Negative (VFloat Float.lit_2_5) = Ok n
            /\ eq_expr (add_numbers n (VFloat Float.lit_2_5)) (VInt 0) init_world
               = (Ok true, init_world)
            /\ eq_expr (add_numbers (VFloat Float.lit_2_5) n) (VInt 0) init_world
               = (Ok true, init_world).
Proof.
  apply (add_numbers_negation_cancels (VFloat Float.lit_2_5) init_world);
    reflexivity.
Defined.

(* ===================================================================== *)
(** ** NaN and the infinities *)
(* ===================================================================== *)

(** X6: NaN is contagious.  With NaN on either side and any number on the
    other, the result is NaN, unless the other operand is an int out of a
    double's range, which raises [OverflowError] first. *)
Theorem add_numbers_nan_propagates (b : value) (w : World) :
  is_numeric b = true ->
  add_numbers (VFloat S754_nan) b w
  = (if overflows b then Raise OverflowError else Ok (VFloat S754_nan), w)
  /\ add_numbers b (VFloat S754_nan) w
     = (if overflows b then Raise OverflowError else Ok (VFloat S754_nan), w).
Proof.
  intros Hb. unfold add_numbers, lift.
  rewrite <- (PyNumber_Add_comm (VFloat S754_nan) b eq_refl Hb).
  pose proof (PyNumber_Add_float_outcome (VFloat S754_nan) b eq_refl Hb eq_refl)
    as H.
  change (overflows (VFloat S754_nan) || overflows b) with (overflows b) in H.
  destruct (overflows b).
  - now rewrite H.
  - destruct H as (x & y & [= <-] & _ & ->). now split.
Qed.

Lemma add_numbers_nan_propagates_witness :
  add_numbers (VFloat S754_nan) (VInt 7) init_world
  = (if overflows (VInt 7) then Raise OverflowError
     else Ok (VFloat S754_nan), init_world)
  /\ add_numbers (VInt 7) (VFloat S754_nan) init_world
     = (if overflows (VInt 7) then Raise OverflowError
        else Ok (VFloat S754_nan), init_world).
Proof.
  apply (add_numbers_nan_propagates (VInt 7) init_world); reflexivity.
Defined.

(** X7: an infinity absorbs every finite number.  With an infinity on
    either side and a finite number on the other, the result is that same
    infinity, unless the finite operand is an int out of a double's range,
    which raises [OverflowError]. *)
Theorem add_numbers_infinity_absorbs (s : bool) (b : value) (w : World) :
  is_numeric b = true -> is_finite b = true ->
  add_numbers (VFloat (S754_infinity s)) b w
  = (if overflows b then Raise OverflowError
     else Ok (VFloat (S754_infinity s)), w)
  /\ add_numbers b (VFloat (S754_infinity s)) w
     = (if overflows b then Raise OverflowError
        else Ok (VFloat (S754_infinity s)), w).
Proof.
  intros Hb Hfin. unfold add_numbers, lift.
  rewrite <- (PyNumber_Add_comm (VFloat (S754_infinity s)) b eq_refl Hb).
  pose proof (PyNumber_Add_float_outcome
                (VFloat (S754_infinity s)) b eq_refl Hb eq_refl) as H.
  change (overflows (VFloat (S754_infinity s)) || overflows b)
    with (overflows b) in H.
  destruct (overflows b).
  - now rewrite H.
  - destruct H as (x & y & [= <-] & Hy & ->).
    assert (Hyfin : is_finite (VFloat y) = true).
    { destruct b as [ | c | z | f | t]; try discriminate Hb.
      - cbn in Hy. destruct (Float.PyLong_AsDouble (Z.b2z c)) eqn:E;
          inversion Hy; subst. now apply PyLong_AsDouble_finite in E.
      - cbn in Hy. destruct (Float.PyLong_AsDouble z) eqn:E;
          inversion Hy; subst. now apply PyLong_AsDouble_finite in E.
      - cbn in Hy. now inversion Hy; subst. }
    destruct y as [t | t | | t m e]; try discriminate Hyfin; now split.
Qed.

Lemma add_numbers_infinity_absorbs_witness :
  add_numbers (VFloat (S754_infinity true)) (VFloat Float.lit_2_5) init_world
  = (if overflows (VFloat Float.lit_2_5) then Raise OverflowError
     else Ok (VFloat (S754_infinity true)), init_world)
  /\ add_numbers (VFloat Float.lit_2_5) (VFloat (S754_infinity true)) init_world
     = (if overflows (VFloat Float.lit_2_5) then Raise OverflowError
        else Ok (VFloat (S754_infinity true)), init_world).
Proof.
  apply (add_numbers_infinity_absorbs true (VFloat Float.lit_2_5) init_world);
    reflexivity.
Defined.

(* ===================================================================== *)
(** ** More on strings *)
(* ===================================================================== *)

Lemma substring_whole (t : string) : substring 0 (String.length t) t = t.
Proof.
  induction t as [ | c t IH]; simpl; [reflexivity | now rewrite IH].
Qed.

Lemma substring_app_head (s t : string) :
  substring 0 (String.length s) (s ++ t) = s.
Proof.
  induction s as [ | c s IH]; simpl.
  - now destruct t.
  - now rewrite IH.
Qed.

Lemma substring_app_tail (s t : string) (m : nat) :
  substring (String.length s) m (s ++ t) = substring 0 m t.
Proof.
  induction s as [ | c s IH]; simpl; [reflexivity | exact IH].
Qed.

(** X8: from the string [add_numbers(s, t)] returns and the lengths of the
    operands, both operands can be cut back out: its length is the sum of
    theirs, its first [len(s)] characters are [s] and the rest is [t]; the
    empty string changes nothing on either side. *)
Theorem add_numbers_str_parts (s t : string) (w : World) :
  (exists r, add_numbers (VStr s) (VStr t) w = (Ok (VStr r), w)
             /\ String.length r = (String.length s + String.length t)%nat
             /\ substring 0 (String.length s) r = s
             /\ substring (String.length s) (String.length t) r = t)
  /\ add_numbers (VStr "") (VStr s) w = (Ok (VStr s), w)
  /\ add_numbers (VStr s) (VStr "") w = (Ok (VStr s), w).
Proof.
  split; [ | split].
  - exists (s ++ t)%string. split; [reflexivity | ].
    split; [apply string_length_app | ].
    split; [apply substring_app_head | ].
    rewrite substring_app_tail. apply substring_whole.
  - reflexivity.
  - unfold add_numbers, lift. cbn. now rewrite string_app_empty_r.
Qed.

(* ===================================================================== *)
(** ** The [__main__] guards *)
(* ===================================================================== *)

(** X9: under any name other than [__main__] the module's top level does
    nothing: it returns normally and leaves the world, standard output
    included, exactly as it was, whatever state standard output is in.
    With a standard output that takes what it is handed, the world is left
    unchanged only then: run under [__main__], the module writes. *)
Theorem module_body_guard
        (float_repr : spec_float -> string) (name : string) (w : World) :
  (name <> "__main__" -> module_body float_repr name w = (Ok tt, w))
  /\ (forall m : buffering,
         sys_stdout w = Some m -> accepts w = true ->
         (snd (module_body float_repr name w) = w <-> name <> "__main__")).
Proof.
  split.
  - intros Hne. unfold module_body.
    destruct (String.eqb_spec name "__main__") as [-> | _];
      [contradiction | reflexivity].
  - intros m Hm Ha.
    destruct (String.eqb_spec name "__main__") as [-> | Hne].
    + split; [ | intros H; now contradiction H].
      destruct (module_body_accepting float_repr w m Hm Ha)
        as (w' & -> & _ & _ & Ht).
      simpl. intros ->.
      apply (f_equal String.length) in Ht.
      rewrite !string_length_app in Ht. simpl in Ht. lia.
    + split; [intros _; exact Hne | intros _].
      unfold module_body.
      destruct (String.eqb_spec name "__main__") as [-> | _];
        [contradiction | reflexivity].
Qed.

Lemma module_body_guard_witness :
  snd (module_body (fun _ => "") "demo_python" init_world) = init_world
  <-> "demo_python" <> "__main__".
Proof.
  apply (proj2 (module_body_guard (fun _ => "") "demo_python" init_world)
               Unbuffered); reflexivity.
Defined.



(** X11: collected under any name other than [__main__], the test file
    starts no session of its own and importing [demo_python] prints
    nothing: all it does is what importing pytest does. *)
Theorem test_module_imported_starts_no_session
        (float_repr : spec_float -> string)
        (import_pytest : M unit) (pytest_main : list string -> M Z)
        (name file : string) (w : World) :
  name <> "__main__" ->
  test_module_body float_repr import_pytest pytest_main name file w
  = import_pytest w.
Proof.
  intros Hne. unfold test_module_body, bind.
  destruct (String.eqb_spec name "__main__") as [-> | _]; [contradiction | ].
  destruct (import_pytest w) as [[[] | e] w']; reflexivity.
Qed.

Lemma test_module_imported_starts_no_session_witness :
  test_module_body (fun _ => "") (write "pytest imported")
                   (fun _ => raise AssertionError)
                   "test_demo_python" "test_demo_python.py" init_world
  = write "pytest imported" init_world.
Proof.
  apply (test_module_imported_starts_no_session
           (fun _ => "") (write "pytest imported")
           (fun _ => raise AssertionError)
           "test_demo_python" "test_demo_python.py" init_world).
  discriminate.
Defined.
